(** * The SQL elastic-pool resource adapter, embedded and verified

    Source: azurerm/resource_arm_sql_elasticpool.go.

    The adapter maps a declarative attribute bag ([schema.ResourceData]) onto
    create-or-update / get / delete calls of the remote management API.  The
    embedding keeps the shape of the Go code: pointers that may be nil are
    [option]s, a Go [error] result is an [option error], a nil dereference is
    a [Panic] outcome, [map[string]string] is a [gmap string string], and the
    remote API is an explicit world threaded through a small state monad that
    also records every remote call that is issued. *)

From Stdlib Require Import ZArith Ascii String List Lia.
From stdpp Require Import base strings gmap.

Open Scope Z_scope.

(** ** Go values *)

(** [*map[string]*string], the tag representation of the API. *)
Abbreviation ApiTags := (option (gmap string (option string))).

(** The values that travel through [interface{}] in this file. *)
Inductive Value :=
| VString (s : string)
| VStringPtr (p : option string)
| VInt (n : Z)
| VTags (m : gmap string string).

(** [int32(x)] for a Go [int]: wrap-around into the signed 32-bit range. *)
Definition int32 (x : Z) : Z := (x + 2 ^ 31) mod 2 ^ 32 - 2 ^ 31.

(** ** Errors

    Every [fmt.Errorf] of the file is a constructor carrying the arguments of
    its format string; errors produced by the SDK are opaque messages. *)
Inductive error :=
| ApiError (msg : string)
    (* an error returned by the SDK client *)
| ErrOddSegments (path : string)
| ErrEmptyKeyValue (key value : string)
| ErrNoSubscription (path : string)
| ErrNoResourceGroup (path : string)
    (* the failures of the resource-path parser *)
| ErrParseId (sqlElasticPoolId : string) (err : error)
    (* "[ERROR] Unable to parse SQL ElasticPool ID %q: %+v" *)
| ErrCannotReadID (name resGroup : string)
    (* "Cannot read SQL ElasticPool %q (resource group %q) ID" *)
| ErrReadRequest (name : string) (err : error)
    (* "Error making Read request on Sql Elastic Pool %s: %s" *)
| ErrValidation (k : string) (valid : list string) (v : string)
    (* "expected %s to be one of %v, got %s" *)
| ErrNotString (k : string).
    (* "expected type of %s to be string" *)

(** ** Resource identifiers *)

(** [strings.Split(s, "/")]. *)
Fixpoint splitSlash (s : string) : list string :=
  match s with
  | EmptyString => [EmptyString]
  | String c rest =>
      if Ascii.eqb c "/" then EmptyString :: splitSlash rest
      else match splitSlash rest with
           | seg :: segs => String c seg :: segs
           | [] => [String c EmptyString]
           end
  end.

(** [if strings.HasPrefix(path, "/") { path = path[1:] }] *)
Definition dropLeadingSlash (path : string) : string :=
  match path with
  | String c rest => if Ascii.eqb c "/" then rest else path
  | EmptyString => path
  end.

(** [if strings.HasSuffix(path, "/") { path = path[:len(path)-1] }] *)
Fixpoint dropTrailingSlash (path : string) : string :=
  match path with
  | EmptyString => EmptyString
  | String c EmptyString => if Ascii.eqb c "/" then EmptyString else path
  | String c rest => String c (dropTrailingSlash rest)
  end.

Record ResourceID := {
  SubscriptionID : string;
  ResourceGroup : string;
  Provider : string;
  Path : gmap string string
}.

(** The key/value loop of the parser: consecutive segments are a key and its
    value; the first "subscriptions" pair is kept apart, every other pair
    goes into the component map (a later pair overwrites an earlier one). *)
Fixpoint collectComponents (components : list string) (subscriptionID : string)
    (componentMap : gmap string string) : (string * gmap string string) + error :=
  match components with
  | key :: value :: rest =>
      if String.eqb key "" || String.eqb value "" then inr (ErrEmptyKeyValue key value)
      else if String.eqb key "subscriptions" && String.eqb subscriptionID ""
           then collectComponents rest value componentMap
           else collectComponents rest subscriptionID (<[key := value]> componentMap)
  | _ => inl (subscriptionID, componentMap)
  end.

(** Modelled from the spec: [parseAzureResourceID] (azurerm/resourceid.go) is
    not part of the sources at hand.  The spec describes the identifier as a
    composite resource path with resource-group, server and pool-name
    segments, read back by a fixed path-segment extraction rule, and a
    malformed identifier as a parse failure.  The rule modelled here is the
    one of Azure resource paths: the path is cut at "/" into alternating keys
    and values, which must come in pairs and be non-empty; the value of
    "subscriptions" and of "resourceGroups" (or "resourcegroups") is
    required, and every other pair is available by key in [Path].  URL
    decoding and white-space trimming are no part of the rule. *)
Definition parseAzureResourceID (id : string) : ResourceID + error :=
  let path := dropTrailingSlash (dropLeadingSlash id) in
  let components := splitSlash path in
  if negb (Nat.eqb (length components mod 2)%nat 0%nat) then inr (ErrOddSegments path)
  else
    match collectComponents components "" ∅ with
    | inr err => inr err
    | inl (subscriptionID, componentMap) =>
        if String.eqb subscriptionID "" then inr (ErrNoSubscription path)
        else
          let finish (resourceGroup : string) (componentMap : gmap string string) :=
            match componentMap !! "providers" with
            | Some provider =>
                inl {| SubscriptionID := subscriptionID; ResourceGroup := resourceGroup;
                       Provider := provider; Path := delete "providers" componentMap |}
            | None =>
                inl {| SubscriptionID := subscriptionID; ResourceGroup := resourceGroup;
                       Provider := ""; Path := componentMap |}
            end in
          match componentMap !! "resourceGroups" with
          | Some resourceGroup => finish resourceGroup (delete "resourceGroups" componentMap)
          | None =>
              match componentMap !! "resourcegroups" with
              | Some resourceGroup => finish resourceGroup (delete "resourcegroups" componentMap)
              | None => inr (ErrNoResourceGroup path)
              end
          end
    end.

(** Indexing a Go map: a missing key reads as the zero value. *)
Definition mapIndex (m : gmap string string) (k : string) : string :=
  default "" (m !! k).

(** [parseArmSqlElasticPoolId]: resource group, server name, pool name, error. *)
Definition parseArmSqlElasticPoolId (sqlElasticPoolId : string)
    : string * string * string * option error :=
  match parseAzureResourceID sqlElasticPoolId with
  | inr err => ("", "", "", Some (ErrParseId sqlElasticPoolId err))
  | inl id => (ResourceGroup id, mapIndex (Path id) "servers",
               mapIndex (Path id) "elasticPools", None)
  end.


(** ** The packages the adapter calls into *)

Module http.
Record Response := { StatusCode : Z }.
Definition StatusNotFound : Z := 404.
End http.

Module autorest.
(** [autorest.Response] wraps a [*http.Response] that may be nil. *)
Record Response := { Response' : option http.Response }.
End autorest.

Module utils.
(** Modelled from the spec: [utils.ResponseWasNotFound] (azurerm/utils) is
    not part of the sources at hand; the spec calls it the test for a
    "not-found response": an HTTP response is present and its status is
    404 Not Found. *)
Definition ResponseWasNotFound (resp : autorest.Response) : bool :=
  match autorest.Response' resp with
  | Some r => Z.eqb (http.StatusCode r) http.StatusNotFound
  | None => false
  end.
End utils.

(** [date.Time], as seconds since the epoch. *)
Abbreviation Time := Z.

Module sql.
(** [sql.ElasticPoolEdition] is a string type. *)
Abbreviation ElasticPoolEdition := string.
Definition ElasticPoolEditionBasic : ElasticPoolEdition := "Basic".
Definition ElasticPoolEditionPremium : ElasticPoolEdition := "Premium".
Definition ElasticPoolEditionStandard : ElasticPoolEdition := "Standard".

(** The fields of [sql.ElasticPoolProperties] the adapter touches;
    [*int32] and [*date.Time] are options. *)
Record ElasticPoolProperties := {
  CreationDate : option Time;
  Edition : ElasticPoolEdition;
  Dtu : option Z;
  DatabaseDtuMax : option Z;
  DatabaseDtuMin : option Z;
  StorageMB : option Z
}.

(** [sql.ElasticPool]; [Properties] is the embedded
    [*ElasticPoolProperties]. *)
Record ElasticPool := {
  Response : autorest.Response;
  Properties : option ElasticPoolProperties;
  Tags : ApiTags;
  Location : option string;
  ID : option string;
  Name : option string
}.

(** The elastic-pools client of the SDK, over a remote world [W].  Each
    operation may change the world and returns its Go results. *)
Record ElasticPoolsClient (W : Type) := {
  Future : Type;
  CreateOrUpdate :
    string → string → string → ElasticPool → W → (Future * option error) * W;
  WaitForCompletion : Future → W → option error * W;
  Get : string → string → string → W → (ElasticPool * option error) * W;
  Delete : string → string → string → W → (autorest.Response * option error) * W
}.
Arguments Future {W} _.
Arguments CreateOrUpdate {W} _ _ _ _ _ _.
Arguments WaitForCompletion {W} _ _ _.
Arguments Get {W} _ _ _ _ _.
Arguments Delete {W} _ _ _ _ _.
End sql.

Module schema.
(** [schema.SchemaValidateFunc]: warnings and errors for a value and key. *)
Definition SchemaValidateFunc : Type := Value → string → list string * list error.

Inductive ValueType := TypeString | TypeInt | TypeMap.

Record Schema := {
  Type' : ValueType;
  Required : bool;
  Optional : bool;
  Computed : bool;
  ForceNew : bool;
  ValidateFunc : option SchemaValidateFunc
}.

Inductive StateFunc := ImportStatePassthrough.
Record ResourceImporter := { State : StateFunc }.

(** [schema.Resource], over the type [F] of its lifecycle functions. *)
Record Resource (F : Type) := {
  Create : F;
  Read : F;
  Update : F;
  Delete : F;
  Importer : option ResourceImporter;
  Schema' : gmap string Schema
}.
Arguments Create {F} _.
Arguments Read {F} _.
Arguments Update {F} _.
Arguments Delete {F} _.
Arguments Importer {F} _.
Arguments Schema' {F} _.

(** [*schema.ResourceData], the attribute bag owned by the configuration
    engine.  The schema fixes the type of every key, so the type
    assertions that follow [d.Get] and [d.GetOk] in the Go code cannot
    fail; the getters are typed accordingly.  [GetOkInt] is [d.GetOk]: the
    value together with the engine's verdict on whether the key is set.
    The one law is that [Id] reads back what [SetId] wrote. *)
Class ResourceData (RD : Type) := {
  Id : RD → string;
  SetId : RD → string → RD;
  GetString : RD → string → string;
  GetInt : RD → string → Z;
  GetMap : RD → string → gmap string Value;
  GetOkInt : RD → string → Z * bool;
  Set' : RD → string → Value → RD;
  Id_SetId : ∀ d v, Id (SetId d v) = v
}.
End schema.

Module validation.
(** ASCII lower-casing, for the case-insensitive comparison. *)
Definition lowerAscii (c : ascii) : ascii :=
  let n := nat_of_ascii c in
  if (Nat.leb 65 n && Nat.leb n 90)%nat then ascii_of_nat (n + 32) else c.

Fixpoint ToLower (s : string) : string :=
  match s with
  | EmptyString => EmptyString
  | String c rest => String (lowerAscii c) (ToLower rest)
  end.

(** Modelled from the spec: [validation.StringInSlice] (the engine's
    helper/validation package) is not part of the sources at hand.  The
    spec describes validation against a fixed allow-list: a value is
    accepted when it is one of the listed strings (compared without regard
    to case only if [ignoreCase] is set) and is rejected with a validation
    error otherwise; a value that is not a string is rejected as well. *)
Definition StringInSlice (valid : list string) (ignoreCase : bool)
    : schema.SchemaValidateFunc :=
  fun i k =>
    match i with
    | VString v =>
        if existsb (fun str => String.eqb v str
                               || (ignoreCase && String.eqb (ToLower v) (ToLower str)))
                   valid
        then ([], [])
        else ([], [ErrValidation k valid v])
    | _ => ([], [ErrNotString k])
    end.
End validation.

(** ** Remote calls, panics and the monad of the lifecycle functions *)

(** The remote calls the adapter can issue, with their addressing triple. *)
Inductive Call :=
| CallCreateOrUpdate (resGroup serverName name : string) (parameters : sql.ElasticPool)
| CallWaitForCompletion
| CallGet (resGroup serverName name : string)
| CallDelete (resGroup serverName name : string).

(** The remote side: the world behind the API and the calls issued so far,
    oldest first. *)
Record Remote (W : Type) := { world : W; calls : list Call }.
Arguments world {W} _.
Arguments calls {W} _.

(** A Go function either returns or panics. *)
Inductive Outcome (A : Type) :=
| Done (a : A)
| Panic.
Arguments Done {A} _.
Arguments Panic {A}.

Definition M (W A : Type) : Type := Remote W → Outcome A * Remote W.

#[global] Instance M_ret W : MRet (M W) := λ A a σ, (Done a, σ).
#[global] Instance M_bind W : MBind (M W) := λ A B f m σ,
  match m σ with
  | (Done a, σ') => f a σ'
  | (Panic, σ') => (Panic, σ')
  end.

(** [*p]: dereferencing a nil pointer panics. *)
Definition deref {W A} (p : option A) : M W A :=
  λ σ, match p with
       | Some a => (Done a, σ)
       | None => (Panic, σ)
       end.

(** Issuing a remote call: run the client's operation on the world and
    append the call to the record. *)
Definition remote {W A} (c : Call) (op : W → A * W) : M W A :=
  λ σ, let '(a, w) := op (world σ) in
       (Done a, {| world := w; calls := calls σ ++ [c] |}).

(** [*ArmClient], as far as the adapter uses it. *)
Record ArmClient (W : Type) := { sqlElasticPoolsClient : sql.ElasticPoolsClient W }.
Arguments sqlElasticPoolsClient {W} _.

(** ** The adapter *)

Section Adapter.
Context {RD : Type} `{!schema.ResourceData RD} {W : Type}.

(** Helpers of the provider that live in other files of the package. *)
Variable azureRMNormalizeLocation : string → string.
Variable expandTags : gmap string Value → ApiTags.
Variable flattenAndSetTags : RD → ApiTags → RD.
Variable locationSchema resourceGroupNameSchema tagsSchema : schema.Schema.
(** [date.Format(time.RFC3339)]. *)
Variable formatRFC3339 : Time → string.

(** [func(d *schema.ResourceData, meta interface{}) error]: the bag is
    updated in place, so it is returned next to the error. *)
Definition Lifecycle : Type := RD → ArmClient W → M W (RD * option error).

Definition validateSqlElasticPoolEdition : schema.SchemaValidateFunc :=
  validation.StringInSlice
    [sql.ElasticPoolEditionBasic; sql.ElasticPoolEditionStandard; sql.ElasticPoolEditionPremium]
    false.

Definition getArmSqlElasticPoolProperties (d : RD) : sql.ElasticPoolProperties :=
  let edition := schema.GetString d "edition" in
  let dtu := int32 (schema.GetInt d "dtu") in
  let props := {| sql.CreationDate := None; sql.Edition := edition; sql.Dtu := Some dtu;
                  sql.DatabaseDtuMax := None; sql.DatabaseDtuMin := None;
                  sql.StorageMB := None |} in
  let props :=
    match schema.GetOkInt d "db_dtu_min" with
    | (databaseDtuMin, true) =>
        {| sql.CreationDate := sql.CreationDate props; sql.Edition := sql.Edition props;
           sql.Dtu := sql.Dtu props; sql.DatabaseDtuMax := sql.DatabaseDtuMax props;
           sql.DatabaseDtuMin := Some (int32 databaseDtuMin);
           sql.StorageMB := sql.StorageMB props |}
    | (_, false) => props
    end in
  let props :=
    match schema.GetOkInt d "db_dtu_max" with
    | (databaseDtuMax, true) =>
        {| sql.CreationDate := sql.CreationDate props; sql.Edition := sql.Edition props;
           sql.Dtu := sql.Dtu props; sql.DatabaseDtuMax := Some (int32 databaseDtuMax);
           sql.DatabaseDtuMin := sql.DatabaseDtuMin props;
           sql.StorageMB := sql.StorageMB props |}
    | (_, false) => props
    end in
  let props :=
    match schema.GetOkInt d "pool_size" with
    | (poolSize, true) =>
        {| sql.CreationDate := sql.CreationDate props; sql.Edition := sql.Edition props;
           sql.Dtu := sql.Dtu props; sql.DatabaseDtuMax := sql.DatabaseDtuMax props;
           sql.DatabaseDtuMin := sql.DatabaseDtuMin props;
           sql.StorageMB := Some (int32 poolSize) |}
    | (_, false) => props
    end in
  props.

(** The block of Read that copies the properties container into the bag. *)
Definition setElasticPoolProperties (d : RD) (elasticPool : sql.ElasticPoolProperties)
    : M W RD :=
  let d := schema.Set' d "edition" (VString (sql.Edition elasticPool)) in
  dtu ← deref (sql.Dtu elasticPool);
  let d := schema.Set' d "dtu" (VInt dtu) in
  databaseDtuMin ← deref (sql.DatabaseDtuMin elasticPool);
  let d := schema.Set' d "db_dtu_min" (VInt databaseDtuMin) in
  databaseDtuMax ← deref (sql.DatabaseDtuMax elasticPool);
  let d := schema.Set' d "db_dtu_max" (VInt databaseDtuMax) in
  storageMB ← deref (sql.StorageMB elasticPool);
  let d := schema.Set' d "pool_size" (VInt storageMB) in
  match sql.CreationDate elasticPool with
  | Some date => mret (schema.Set' d "creation_date" (VString (formatRFC3339 date)))
  | None => mret d
  end.

Definition resourceArmSqlElasticPoolRead : Lifecycle := λ d meta,
  let client := sqlElasticPoolsClient meta in
  let '(resGroup, serverName, name, err) := parseArmSqlElasticPoolId (schema.Id d) in
  match err with
  | Some err => mret (d, Some err)
  | None =>
      '(resp, err) ← remote (CallGet resGroup serverName name)
                            (sql.Get client resGroup serverName name);
      match err with
      | Some err =>
          if utils.ResponseWasNotFound (sql.Response resp)
          then mret (schema.SetId d "", None)
          else mret (d, Some (ErrReadRequest name err))
      | None =>
          let d := schema.Set' d "name" (VStringPtr (sql.Name resp)) in
          let d := schema.Set' d "resource_group_name" (VString resGroup) in
          location ← deref (sql.Location resp);
          let d := schema.Set' d "location" (VString (azureRMNormalizeLocation location)) in
          let d := schema.Set' d "server_name" (VString serverName) in
          d ← match sql.Properties resp with
              | Some elasticPool => setElasticPoolProperties d elasticPool
              | None => mret d
              end;
          let d := flattenAndSetTags d (sql.Tags resp) in
          mret (d, None)
      end
  end.

(** The [sql.ElasticPool] literal that Create sends; the fields it leaves
    out are zero values. *)
Definition elasticPoolOf (d : RD) : sql.ElasticPool :=
  let name := schema.GetString d "name" in
  let location := schema.GetString d "location" in
  let tags := schema.GetMap d "tags" in
  {| sql.Response := {| autorest.Response' := None |};
     sql.Properties := Some (getArmSqlElasticPoolProperties d);
     sql.Tags := expandTags tags;
     sql.Location := Some location;
     sql.ID := None;
     sql.Name := Some name |}.

Definition resourceArmSqlElasticPoolCreate : Lifecycle := λ d meta,
  let client := sqlElasticPoolsClient meta in
  let name := schema.GetString d "name" in
  let serverName := schema.GetString d "server_name" in
  let resGroup := schema.GetString d "resource_group_name" in
  let elasticPool := elasticPoolOf d in
  '(future, err) ← remote (CallCreateOrUpdate resGroup serverName name elasticPool)
                          (sql.CreateOrUpdate client resGroup serverName name elasticPool);
  match err with
  | Some err => mret (d, Some err)
  | None =>
      err ← remote CallWaitForCompletion (sql.WaitForCompletion client future);
      match err with
      | Some err => mret (d, Some err)
      | None =>
          '(read, err) ← remote (CallGet resGroup serverName name)
                                (sql.Get client resGroup serverName name);
          match err with
          | Some err => mret (d, Some err)
          | None =>
              match sql.ID read with
              | None => mret (d, Some (ErrCannotReadID name resGroup))
              | Some id =>
                  let d := schema.SetId d id in
                  resourceArmSqlElasticPoolRead d meta
              end
          end
      end
  end.

Definition resourceArmSqlElasticPoolDelete : Lifecycle := λ d meta,
  let client := meta in
  let elasticPoolsClient := sqlElasticPoolsClient client in
  let '(resGroup, serverName, name, err) := parseArmSqlElasticPoolId (schema.Id d) in
  match err with
  | Some err => mret (d, Some err)
  | None =>
      '(_, err) ← remote (CallDelete resGroup serverName name)
                         (sql.Delete elasticPoolsClient resGroup serverName name);
      mret (d, err)
  end.

Definition resourceArmSqlElasticPool : schema.Resource Lifecycle :=
  {| schema.Create := resourceArmSqlElasticPoolCreate;
     schema.Read := resourceArmSqlElasticPoolRead;
     schema.Update := resourceArmSqlElasticPoolCreate;
     schema.Delete := resourceArmSqlElasticPoolDelete;
     schema.Importer := Some {| schema.State := schema.ImportStatePassthrough |};
     schema.Schema' :=
       list_to_map
         [ ("name",
             {| schema.Type' := schema.TypeString; schema.Required := true;
                schema.Optional := false; schema.Computed := false;
                schema.ForceNew := true; schema.ValidateFunc := None |});
           ("location", locationSchema);
           ("resource_group_name", resourceGroupNameSchema);
           ("server_name",
             {| schema.Type' := schema.TypeString; schema.Required := true;
                schema.Optional := false; schema.Computed := false;
                schema.ForceNew := true; schema.ValidateFunc := None |});
           ("edition",
             {| schema.Type' := schema.TypeString; schema.Required := true;
                schema.Optional := false; schema.Computed := false;
                schema.ForceNew := true;
                schema.ValidateFunc := Some validateSqlElasticPoolEdition |});
           ("dtu",
             {| schema.Type' := schema.TypeInt; schema.Required := true;
                schema.Optional := false; schema.Computed := false;
                schema.ForceNew := false; schema.ValidateFunc := None |});
           ("db_dtu_min",
             {| schema.Type' := schema.TypeInt; schema.Required := false;
                schema.Optional := true; schema.Computed := true;
                schema.ForceNew := false; schema.ValidateFunc := None |});
           ("db_dtu_max",
             {| schema.Type' := schema.TypeInt; schema.Required := false;
                schema.Optional := true; schema.Computed := true;
                schema.ForceNew := false; schema.ValidateFunc := None |});
           ("pool_size",
             {| schema.Type' := schema.TypeInt; schema.Required := false;
                schema.Optional := true; schema.Computed := true;
                schema.ForceNew := false; schema.ValidateFunc := None |});
           ("creation_date",
             {| schema.Type' := schema.TypeString; schema.Required := false;
                schema.Optional := false; schema.Computed := true;
                schema.ForceNew := false; schema.ValidateFunc := None |});
           ("tags", tagsSchema) ] |}.

End Adapter.

(** ** An in-memory attribute bag and a scripted client

    Concrete instances of the two interfaces, on which the lifecycle
    functions can be run. *)

Record Bag := { bagId : string; bagAttrs : gmap string Value }.

(** The bag follows the engine's reading of [GetOk]: a key counts as set
    when it holds a value other than the zero value of its type. *)
#[global] Instance Bag_ResourceData : schema.ResourceData Bag := {|
  schema.Id := bagId;
  schema.SetId d v := {| bagId := v; bagAttrs := bagAttrs d |};
  schema.GetString d k :=
    match bagAttrs d !! k with Some (VString s) => s | _ => "" end;
  schema.GetInt d k :=
    match bagAttrs d !! k with Some (VInt n) => n | _ => 0 end;
  schema.GetMap d k :=
    match bagAttrs d !! k with Some (VTags m) => VString <$> m | _ => ∅ end;
  schema.GetOkInt d k :=
    match bagAttrs d !! k with Some (VInt n) => (n, negb (Z.eqb n 0)) | _ => (0, false) end;
  schema.Set' d k v := {| bagId := bagId d; bagAttrs := <[k := v]> (bagAttrs d) |};
  schema.Id_SetId := λ d v, eq_refl
|}.

(** A client that answers from a script: the error of create-or-update, the
    error of the wait, the result of every get and the error of delete.  Its
    world counts the calls it has served. *)
Definition scriptedClient (createErr waitErr : option error)
    (getResult : sql.ElasticPool * option error) (deleteErr : option error)
    : sql.ElasticPoolsClient nat :=
  {| sql.Future := unit;
     sql.CreateOrUpdate := λ _ _ _ _ w, ((tt, createErr), S w);
     sql.WaitForCompletion := λ _ w, (waitErr, S w);
     sql.Get := λ _ _ _ w, (getResult, S w);
     sql.Delete := λ _ _ _ w, (({| autorest.Response' := None |}, deleteErr), S w) |}.

Definition normalizeLocationStub : string → string := λ location, location.
Definition expandTagsStub : gmap string Value → ApiTags := λ _, None.
Definition flattenAndSetTagsStub : Bag → ApiTags → Bag := λ d _, d.
Definition formatRFC3339Stub : Time → string := λ _, "2024-01-01T00:00:00Z".

Definition pool1Id : string :=
  "/subscriptions/0000/resourceGroups/rg1/providers/Microsoft.Sql/servers/srv1/elasticPools/pool1".

(** The desired attributes of the spec's end-to-end scenario. *)
Definition pool1Bag (id : string) : Bag :=
  {| bagId := id;
     bagAttrs := list_to_map
       [ ("name", VString "pool1"); ("server_name", VString "srv1");
         ("resource_group_name", VString "rg1"); ("location", VString "westus");
         ("edition", VString "Standard"); ("dtu", VInt 100) ] |}.

Definition statusResponse (code : Z) : autorest.Response :=
  {| autorest.Response' := Some {| http.StatusCode := code |} |}.

Definition emptyPool (resp : autorest.Response) : sql.ElasticPool :=
  {| sql.Response := resp; sql.Properties := None; sql.Tags := None;
     sql.Location := None; sql.ID := None; sql.Name := None |}.

Definition freshRemote : Remote nat := {| world := 0%nat; calls := [] |}.

(** Clients for the scenarios of the spec: a get that reports not-found, a
    get that fails otherwise, a get whose pool lacks a DTU, a get whose pool
    lacks an identifier, and a wait that fails. *)
Definition metaOf (client : sql.ElasticPoolsClient nat) : ArmClient nat :=
  {| sqlElasticPoolsClient := client |}.

Definition notFoundMeta : ArmClient nat :=
  metaOf (scriptedClient None None
            (emptyPool (statusResponse 404), Some (ApiError "ResourceNotFound")) None).

Definition serverErrorMeta : ArmClient nat :=
  metaOf (scriptedClient None None
            (emptyPool (statusResponse 500), Some (ApiError "InternalServerError")) None).

Definition partialProperties : sql.ElasticPoolProperties :=
  {| sql.CreationDate := Some 1704067200; sql.Edition := "Standard"; sql.Dtu := None;
     sql.DatabaseDtuMax := Some 100; sql.DatabaseDtuMin := Some 0;
     sql.StorageMB := Some 102400 |}.

Definition partialPool : sql.ElasticPool :=
  {| sql.Response := statusResponse 200; sql.Properties := Some partialProperties;
     sql.Tags := None; sql.Location := Some "West US"; sql.ID := Some pool1Id;
     sql.Name := Some "pool1" |}.

Definition partialMeta : ArmClient nat :=
  metaOf (scriptedClient None None (partialPool, None) None).

Definition missingIdMeta : ArmClient nat :=
  metaOf (scriptedClient None None (emptyPool (statusResponse 200), None) None).

Definition failedWaitMeta : ArmClient nat :=
  metaOf (scriptedClient None (Some (ApiError "DeploymentFailed"))
            (emptyPool (statusResponse 200), None) None).

Definition fullProperties : sql.ElasticPoolProperties :=
  {| sql.CreationDate := Some 1704067200; sql.Edition := "Standard"; sql.Dtu := Some 100;
     sql.DatabaseDtuMax := Some 100; sql.DatabaseDtuMin := Some 0;
     sql.StorageMB := Some 102400 |}.

(** The pool the simulated API reports once creation has completed. *)
Definition fullPool (id : string) : sql.ElasticPool :=
  {| sql.Response := statusResponse 200; sql.Properties := Some fullProperties;
     sql.Tags := None; sql.Location := Some "westus"; sql.ID := Some id;
     sql.Name := Some "pool1" |}.

Definition completedMeta (id : string) : ArmClient nat :=
  metaOf (scriptedClient None None (fullPool id, None) None).

(** ** Vocabulary of the properties *)

(** A computation only ever appends to the record of remote calls. *)
Definition appends {W A} (m : M W A) : Prop :=
  ∀ σ, ∃ rest, calls (m σ).2 = calls σ ++ rest.

(** The stages of Create that precede the assignment of the identifier. *)
Inductive CreateStage :=
| StageRequest
| StageWait
| StageRefetch
| StageIdentifier.

Section Stages.
Context {RD : Type} `{!schema.ResourceData RD} {W : Type}.
Variable expandTags : gmap string Value → ApiTags.
Variables (d : RD) (meta : ArmClient W).

#[local] Abbreviation client := (sqlElasticPoolsClient meta).
#[local] Abbreviation name := (schema.GetString d "name").
#[local] Abbreviation serverName := (schema.GetString d "server_name").
#[local] Abbreviation resGroup := (schema.GetString d "resource_group_name").

(** [CreateFailure w stage err]: started on the remote world [w], the
    client's answers to the calls of Create make [stage] the first one that
    fails, with error [err]. *)
Inductive CreateFailure (w : W) : CreateStage → error → Prop :=
| FailRequest future err w1 :
    sql.CreateOrUpdate client resGroup serverName name (elasticPoolOf expandTags d) w
      = (future, Some err, w1) →
    CreateFailure w StageRequest err
| FailWait future w1 err w2 :
    sql.CreateOrUpdate client resGroup serverName name (elasticPoolOf expandTags d) w
      = (future, None, w1) →
    sql.WaitForCompletion client future w1 = (Some err, w2) →
    CreateFailure w StageWait err
| FailRefetch future w1 w2 read err w3 :
    sql.CreateOrUpdate client resGroup serverName name (elasticPoolOf expandTags d) w
      = (future, None, w1) →
    sql.WaitForCompletion client future w1 = (None, w2) →
    sql.Get client resGroup serverName name w2 = (read, Some err, w3) →
    CreateFailure w StageRefetch err
| FailIdentifier future w1 w2 read w3 :
    sql.CreateOrUpdate client resGroup serverName name (elasticPoolOf expandTags d) w
      = (future, None, w1) →
    sql.WaitForCompletion client future w1 = (None, w2) →
    sql.Get client resGroup serverName name w2 = (read, None, w3) →
    sql.ID read = None →
    CreateFailure w StageIdentifier (ErrCannotReadID name resGroup).

End Stages.



(** What the engine guarantees of the bag beyond [Id_SetId]: writing an
    attribute leaves the identifier alone. *)
Class ResourceDataLaws (RD : Type) `{!schema.ResourceData RD} := {
  Id_Set' : ∀ (d : RD) (k : string) (v : Value),
    schema.Id (schema.Set' d k v) = schema.Id d
}.

#[global] Instance Bag_Laws : ResourceDataLaws Bag := {| Id_Set' := λ d k v, eq_refl |}.

(** The number of remote calls Create has issued when it fails at a stage. *)
Definition stageCalls (stage : CreateStage) : nat :=
  match stage with
  | StageRequest => 1
  | StageWait => 2
  | StageRefetch => 3
  | StageIdentifier => 3
  end.

(** The remote calls of Create up to the assignment of the identifier. *)
Definition createCalls (resGroup serverName name : string) (parameters : sql.ElasticPool)
    : list Call :=
  [CallCreateOrUpdate resGroup serverName name parameters;
   CallWaitForCompletion;
   CallGet resGroup serverName name].

Definition isDelete (c : Call) : bool :=
  match c with
  | CallDelete _ _ _ => true
  | _ => false
  end.

(** The range of a Go [int32]. *)
Definition inInt32 (x : Z) : Prop := - 2 ^ 31 ≤ x < 2 ^ 31.

(** * Properties *)

(** ** Arithmetic and monad facts shared by the proofs *)

Lemma int32_in_range (x : Z) : - 2 ^ 31 ≤ x < 2 ^ 31 → int32 x = x.
Proof. intros Hx. unfold int32. rewrite Z.mod_small; lia. Qed.

Lemma appends_ret {W A} (a : A) : appends (mret a : M W A).
Proof. intros σ. exists []. simpl. by rewrite app_nil_r. Qed.

Lemma appends_deref {W A} (p : option A) : appends (deref p : M W A).
Proof. intros σ. exists []. unfold deref. destruct p; simpl; by rewrite app_nil_r. Qed.

Lemma appends_remote {W A} (c : Call) (op : W → A * W) : appends (remote c op).
Proof. intros σ. exists [c]. unfold remote. by destruct (op (world σ)). Qed.



Create HintDb appends.
#[local] Hint Resolve appends_ret appends_deref appends_remote : appends.

Section Properties.
Context {RD : Type} `{!schema.ResourceData RD} {W : Type}.
Variable azureRMNormalizeLocation : string → string.
Variable expandTags : gmap string Value → ApiTags.
Variable flattenAndSetTags : RD → ApiTags → RD.
Variable locationSchema resourceGroupNameSchema tagsSchema : schema.Schema.
Variable formatRFC3339 : Time → string.

#[local] Abbreviation Read :=
  (resourceArmSqlElasticPoolRead (W := W) azureRMNormalizeLocation flattenAndSetTags
     formatRFC3339).
#[local] Abbreviation Create :=
  (resourceArmSqlElasticPoolCreate (W := W) azureRMNormalizeLocation expandTags
     flattenAndSetTags formatRFC3339).
#[local] Abbreviation Delete := (resourceArmSqlElasticPoolDelete (RD := RD) (W := W)).
#[local] Abbreviation Resource :=
  (resourceArmSqlElasticPool (W := W) azureRMNormalizeLocation expandTags flattenAndSetTags
     locationSchema resourceGroupNameSchema tagsSchema formatRFC3339).



(** ** The claims *)


(** C8.  Update is Create: the resource registers the very same function
    for both, so on every bag, client and remote state the two produce the
    same outcome, the same writes and the same remote calls. *)
Theorem update_is_create :
  schema.Update Resource = schema.Create Resource
  ∧ ∀ (d : RD) (meta : ArmClient W) (σ : Remote W),
      schema.Update Resource d meta σ = schema.Create Resource d meta σ.
Proof. split; reflexivity. Qed.


(** C1.  When the get of Read comes back as a not-found response, Read
    clears the identifier and returns no error, after that one get; any
    other failed get makes Read return an error instead. *)
Theorem read_not_found_clears_id (d : RD) (meta : ArmClient W) (σ : Remote W)
    (resGroup serverName name : string) (resp : sql.ElasticPool) (err : error) (w' : W) :
  parseArmSqlElasticPoolId (schema.Id d) = (resGroup, serverName, name, None) →
  sql.Get (sqlElasticPoolsClient meta) resGroup serverName name (world σ)
    = (resp, Some err, w') →
  let σ' := {| world := w'; calls := calls σ ++ [CallGet resGroup serverName name] |} in
  if utils.ResponseWasNotFound (sql.Response resp)
  then Read d meta σ = (Done (schema.SetId d "", None), σ')
       ∧ schema.Id (schema.SetId d "") = ""
  else ∃ e, Read d meta σ = (Done (d, Some e), σ').
Proof.
  intros Hparse Hget. unfold resourceArmSqlElasticPoolRead. rewrite Hparse.
  unfold mbind, M_bind, remote. rewrite Hget. simpl.
  destruct (utils.ResponseWasNotFound (sql.Response resp)).
  - split; [reflexivity | apply schema.Id_SetId].
  - eexists. reflexivity.
Qed.

(** C7.  When the get of Read fails and the response is not a not-found
    response, Read returns an error that wraps the original one, and hands
    back the bag exactly as it received it: the identifier is not cleared
    and no attribute is written. *)
Theorem read_api_error_propagates (d : RD) (meta : ArmClient W) (σ : Remote W)
    (resGroup serverName name : string) (resp : sql.ElasticPool) (err : error) (w' : W) :
  parseArmSqlElasticPoolId (schema.Id d) = (resGroup, serverName, name, None) →
  sql.Get (sqlElasticPoolsClient meta) resGroup serverName name (world σ)
    = (resp, Some err, w') →
  utils.ResponseWasNotFound (sql.Response resp) = false →
  Read d meta σ
  = (Done (d, Some (ErrReadRequest name err)),
     {| world := w'; calls := calls σ ++ [CallGet resGroup serverName name] |}).
Proof.
  intros Hparse Hget Hnf. unfold resourceArmSqlElasticPoolRead. rewrite Hparse.
  unfold mbind, M_bind, remote. rewrite Hget. simpl. by rewrite Hnf.
Qed.

(** C4 (as the code behaves).  When the get of Read succeeds and the
    properties container is present, a nil DTU, db-DTU-min, db-DTU-max or
    pool size makes Read panic on the dereference: nothing is returned. *)
Theorem read_nil_field_panics (d : RD) (meta : ArmClient W) (σ : Remote W)
    (resGroup serverName name location : string) (resp : sql.ElasticPool)
    (elasticPool : sql.ElasticPoolProperties) (w' : W) :
  parseArmSqlElasticPoolId (schema.Id d) = (resGroup, serverName, name, None) →
  sql.Get (sqlElasticPoolsClient meta) resGroup serverName name (world σ)
    = (resp, None, w') →
  sql.Location resp = Some location →
  sql.Properties resp = Some elasticPool →
  sql.Dtu elasticPool = None ∨ sql.DatabaseDtuMin elasticPool = None
    ∨ sql.DatabaseDtuMax elasticPool = None ∨ sql.StorageMB elasticPool = None →
  (Read d meta σ).1 = Panic.
Proof.
  intros Hparse Hget Hloc Hprops Hnil. unfold resourceArmSqlElasticPoolRead.
  rewrite Hparse. unfold mbind, M_bind, remote. rewrite Hget. simpl.
  rewrite Hloc, Hprops. simpl. unfold setElasticPoolProperties, mbind, M_bind.
  destruct (sql.Dtu elasticPool), (sql.DatabaseDtuMin elasticPool),
    (sql.DatabaseDtuMax elasticPool), (sql.StorageMB elasticPool);
    simpl; try reflexivity.
  destruct Hnil as [?|[?|[?|?]]]; discriminate.
Qed.

(** C9.  With a well-formed identifier, Delete issues exactly one remote
    call, the delete of the parsed resource group, server and pool, and
    returns that call's error unchanged (no error when the call reports
    none, whatever the remote world held).  With a malformed identifier it
    returns the parse error and issues no remote call at all. *)
Theorem delete_issues_one_call (d : RD) (meta : ArmClient W) (σ : Remote W) :
  match parseAzureResourceID (schema.Id d) with
  | inl id =>
      let resGroup := ResourceGroup id in
      let serverName := mapIndex (Path id) "servers" in
      let name := mapIndex (Path id) "elasticPools" in
      let '(_, err, w') :=
        sql.Delete (sqlElasticPoolsClient meta) resGroup serverName name (world σ) in
      Delete d meta σ
      = (Done (d, err),
         {| world := w'; calls := calls σ ++ [CallDelete resGroup serverName name] |})
  | inr cause =>
      Delete d meta σ = (Done (d, Some (ErrParseId (schema.Id d) cause)), σ)
  end.
Proof.
  unfold resourceArmSqlElasticPoolDelete, parseArmSqlElasticPoolId.
  destruct (parseAzureResourceID (schema.Id d)) as [id|cause]; [|reflexivity].
  unfold mbind, M_bind, remote.
  by destruct (sql.Delete _ _ _ _ _) as [[resp err] w'].
Qed.

(** C6.  When create-or-update and the wait succeed and the re-fetch
    succeeds with a nil identifier, Create returns the error that names the
    pool and its resource group, after exactly those three remote calls. *)
Theorem create_missing_id_fails (d : RD) (meta : ArmClient W) (σ : Remote W)
    (future : sql.Future (sqlElasticPoolsClient meta)) (read : sql.ElasticPool)
    (w1 w2 w3 : W) :
  let client := sqlElasticPoolsClient meta in
  let name := schema.GetString d "name" in
  let serverName := schema.GetString d "server_name" in
  let resGroup := schema.GetString d "resource_group_name" in
  sql.CreateOrUpdate client resGroup serverName name (elasticPoolOf expandTags d) (world σ)
    = (future, None, w1) →
  sql.WaitForCompletion client future w1 = (None, w2) →
  sql.Get client resGroup serverName name w2 = (read, None, w3) →
  sql.ID read = None →
  Create d meta σ
  = (Done (d, Some (ErrCannotReadID name resGroup)),
     {| world := w3;
        calls := calls σ ++ [CallCreateOrUpdate resGroup serverName name
                               (elasticPoolOf expandTags d);
                             CallWaitForCompletion;
                             CallGet resGroup serverName name] |}).
Proof.
  intros client name serverName resGroup Hcreate Hwait Hget Hid.
  unfold resourceArmSqlElasticPoolCreate, mbind, M_bind, remote.
  fold client name serverName resGroup. rewrite Hcreate. simpl.
  rewrite Hwait. simpl. rewrite Hget. simpl. rewrite Hid. simpl.
  by rewrite <- !app_assoc.
Qed.

(** C10.  When Create fails at one of its four stages before the
    identifier is assigned (the create-or-update request, the wait for
    completion, the re-fetch, or a re-fetched pool without identifier), it
    returns that stage's error together with the bag exactly as it was
    passed in: the identifier has not been assigned. *)
Theorem create_failure_leaves_id (d : RD) (meta : ArmClient W) (σ : Remote W)
    (stage : CreateStage) (err : error) :
  CreateFailure expandTags d meta (world σ) stage err →
  ∃ σ', Create d meta σ = (Done (d, Some err), σ').
Proof.
  intros Hfail. unfold resourceArmSqlElasticPoolCreate, mbind, M_bind, remote.
  inversion Hfail as [future e w1 Hcreate | future w1 e w2 Hcreate Hwait
                     | future w1 w2 read e w3 Hcreate Hwait Hget
                     | future w1 w2 read w3 Hcreate Hwait Hget Hid]; subst;
    rewrite Hcreate; simpl.
  - by eexists.
  - rewrite Hwait. by eexists.
  - rewrite Hwait. simpl. rewrite Hget. by eexists.
  - rewrite Hwait. simpl. rewrite Hget. simpl. rewrite Hid. by eexists.
Qed.

End Properties.

(** ** Identifiers: cutting a path back into its segments *)













(** ** The properties at work on the scripted client *)


Lemma read_not_found_witness :
  resourceArmSqlElasticPoolRead normalizeLocationStub flattenAndSetTagsStub
    formatRFC3339Stub (pool1Bag pool1Id) notFoundMeta freshRemote
  = (Done (schema.SetId (pool1Bag pool1Id) "", None),
     {| world := 1%nat; calls := [CallGet "rg1" "srv1" "pool1"] |})
  ∧ schema.Id (schema.SetId (pool1Bag pool1Id) "") = "".
Proof.
  refine (read_not_found_clears_id normalizeLocationStub flattenAndSetTagsStub
            formatRFC3339Stub (pool1Bag pool1Id) notFoundMeta freshRemote
            "rg1" "srv1" "pool1" (emptyPool (statusResponse 404))
            (ApiError "ResourceNotFound") 1%nat _ _).
  - vm_compute. reflexivity.
  - reflexivity.
Defined.

Lemma read_api_error_witness :
  resourceArmSqlElasticPoolRead normalizeLocationStub flattenAndSetTagsStub
    formatRFC3339Stub (pool1Bag pool1Id) serverErrorMeta freshRemote
  = (Done (pool1Bag pool1Id,
           Some (ErrReadRequest "pool1" (ApiError "InternalServerError"))),
     {| world := 1%nat; calls := [CallGet "rg1" "srv1" "pool1"] |}).
Proof.
  refine (read_api_error_propagates normalizeLocationStub flattenAndSetTagsStub
            formatRFC3339Stub (pool1Bag pool1Id) serverErrorMeta freshRemote
            "rg1" "srv1" "pool1" (emptyPool (statusResponse 500))
            (ApiError "InternalServerError") 1%nat _ _ _).
  - vm_compute. reflexivity.
  - reflexivity.
  - reflexivity.
Defined.

Lemma read_nil_field_witness :
  (resourceArmSqlElasticPoolRead normalizeLocationStub flattenAndSetTagsStub
     formatRFC3339Stub (pool1Bag pool1Id) partialMeta freshRemote).1 = Panic.
Proof.
  refine (read_nil_field_panics normalizeLocationStub flattenAndSetTagsStub
            formatRFC3339Stub (pool1Bag pool1Id) partialMeta freshRemote
            "rg1" "srv1" "pool1" "West US" partialPool partialProperties 1%nat
            _ _ _ _ _).
  - vm_compute. reflexivity.
  - reflexivity.
  - reflexivity.
  - reflexivity.
  - left. reflexivity.
Defined.

Lemma create_missing_id_witness :
  resourceArmSqlElasticPoolCreate normalizeLocationStub expandTagsStub
    flattenAndSetTagsStub formatRFC3339Stub (pool1Bag "") missingIdMeta freshRemote
  = (Done (pool1Bag "", Some (ErrCannotReadID "pool1" "rg1")),
     {| world := 3%nat;
        calls := [CallCreateOrUpdate "rg1" "srv1" "pool1"
                    (elasticPoolOf expandTagsStub (pool1Bag ""));
                  CallWaitForCompletion; CallGet "rg1" "srv1" "pool1"] |}).
Proof.
  refine (create_missing_id_fails normalizeLocationStub expandTagsStub
            flattenAndSetTagsStub formatRFC3339Stub (pool1Bag "") missingIdMeta
            freshRemote tt (emptyPool (statusResponse 200)) 1%nat 2%nat 3%nat _ _ _ _);
    reflexivity.
Defined.

Lemma create_failure_witness :
  ∃ σ', resourceArmSqlElasticPoolCreate normalizeLocationStub expandTagsStub
          flattenAndSetTagsStub formatRFC3339Stub (pool1Bag "") failedWaitMeta freshRemote
        = (Done (pool1Bag "", Some (ApiError "DeploymentFailed")), σ').
Proof.
  refine (create_failure_leaves_id normalizeLocationStub expandTagsStub
            flattenAndSetTagsStub formatRFC3339Stub (pool1Bag "") failedWaitMeta
            freshRemote StageWait (ApiError "DeploymentFailed") _).
  eapply FailWait; reflexivity.
Defined.

(** ** The scenarios of the spec, run on the scripted client *)

(** Create with the minimal desired attributes: the payload holds the
    edition and the DTU and none of the optional sizes; after completion the
    bag holds the fetched identifier, the creation date and the location,
    and four remote calls were issued. *)
Example create_scenario :
  let payload := elasticPoolOf expandTagsStub (pool1Bag "") in
  let run := resourceArmSqlElasticPoolCreate normalizeLocationStub expandTagsStub
               flattenAndSetTagsStub formatRFC3339Stub (pool1Bag "")
               (completedMeta pool1Id) freshRemote in
  sql.Properties payload
  = Some {| sql.CreationDate := None; sql.Edition := "Standard"; sql.Dtu := Some 100;
            sql.DatabaseDtuMax := None; sql.DatabaseDtuMin := None;
            sql.StorageMB := None |}
  ∧ ∃ d', run = (Done (d', None),
                 {| world := 4%nat;
                    calls := [CallCreateOrUpdate "rg1" "srv1" "pool1" payload;
                              CallWaitForCompletion;
                              CallGet "rg1" "srv1" "pool1";
                              CallGet "rg1" "srv1" "pool1"] |})
          ∧ schema.Id d' = pool1Id
          ∧ bagAttrs d' !! "creation_date" = Some (VString "2024-01-01T00:00:00Z")
          ∧ bagAttrs d' !! "location" = Some (VString "westus")
          ∧ bagAttrs d' !! "dtu" = Some (VInt 100).
Proof. split; [reflexivity|]. eexists. repeat split; vm_compute; reflexivity. Qed.

(** Delete on a well-formed identifier: one delete call on the parsed triple. *)
Example delete_scenario :
  resourceArmSqlElasticPoolDelete (pool1Bag pool1Id) (completedMeta pool1Id) freshRemote
  = (Done (pool1Bag pool1Id, None),
     {| world := 1%nat; calls := [CallDelete "rg1" "srv1" "pool1"] |}).
Proof. vm_compute. reflexivity. Qed.

(** Delete on a malformed identifier: the parse error, and no remote call. *)
Example delete_malformed_scenario :
  resourceArmSqlElasticPoolDelete (pool1Bag "pool1") (completedMeta pool1Id) freshRemote
  = (Done (pool1Bag "pool1", Some (ErrParseId "pool1" (ErrOddSegments "pool1"))),
     freshRemote).
Proof. vm_compute. reflexivity. Qed.

(** An identifier assigned by Create stays assigned when the Read that
    follows fails: here the API hands out an identifier that does not parse. *)
Example create_read_failure_scenario :
  (resourceArmSqlElasticPoolCreate normalizeLocationStub expandTagsStub
     flattenAndSetTagsStub formatRFC3339Stub (pool1Bag "")
     (completedMeta "pool1") freshRemote).1
  = Done (pool1Bag "pool1", Some (ErrParseId "pool1" (ErrOddSegments "pool1"))).
Proof. vm_compute. reflexivity. Qed.

(** The bag reads a key that holds the zero value as not set, as the
    engine's [GetOk] does: a db-DTU-min of 0 does not reach the payload. *)
Example zero_reads_as_unset :
  sql.DatabaseDtuMin (getArmSqlElasticPoolProperties
    {| bagId := ""; bagAttrs := <["db_dtu_min" := VInt 0]> (bagAttrs (pool1Bag "")) |})
  = None.
Proof. vm_compute. reflexivity. Qed.

(** * Further properties of the lifecycle functions *)

Section Further.
Context {RD : Type} `{!schema.ResourceData RD} `{!ResourceDataLaws RD} {W : Type}.
Variable azureRMNormalizeLocation : string → string.
Variable expandTags : gmap string Value → ApiTags.
Variable flattenAndSetTags : RD → ApiTags → RD.
Variable formatRFC3339 : Time → string.

#[local] Abbreviation Read :=
  (resourceArmSqlElasticPoolRead (W := W) azureRMNormalizeLocation flattenAndSetTags
     formatRFC3339).
#[local] Abbreviation Create :=
  (resourceArmSqlElasticPoolCreate (W := W) azureRMNormalizeLocation expandTags
     flattenAndSetTags formatRFC3339).

(** The remote state Read leaves behind, whatever its outcome. *)
Lemma Read_remote_state (d : RD) (meta : ArmClient W) (σ : Remote W) :
  (Read d meta σ).2
  = match parseArmSqlElasticPoolId (schema.Id d) with
    | (resGroup, serverName, name, None) =>
        {| world := (sql.Get (sqlElasticPoolsClient meta) resGroup serverName name
                       (world σ)).2;
           calls := calls σ ++ [CallGet resGroup serverName name] |}
    | (_, _, _, Some _) => σ
    end.
Proof.
  unfold resourceArmSqlElasticPoolRead.
  destruct (parseArmSqlElasticPoolId _) as [[[resGroup serverName] name] [e|]];
    [reflexivity|].
  unfold mbind, M_bind, remote.
  destruct (sql.Get _ _ _ _ _) as [[resp [err|]] w']; simpl.
  - destruct (utils.ResponseWasNotFound _); reflexivity.
  - unfold deref. destruct (sql.Location resp); [|reflexivity]. simpl.
    destruct (sql.Properties resp) as [p|]; [|reflexivity].
    unfold setElasticPoolProperties, mbind, M_bind, deref.
    destruct (sql.Dtu p), (sql.DatabaseDtuMin p), (sql.DatabaseDtuMax p),
      (sql.StorageMB p), (sql.CreationDate p); reflexivity.
Qed.

(** The block that copies the properties never touches the identifier. *)
Lemma setElasticPoolProperties_identifier (d d' : RD) (p : sql.ElasticPoolProperties)
    (σ σ' : Remote W) :
  setElasticPoolProperties formatRFC3339 d p σ = (Done d', σ') →
  schema.Id d' = schema.Id d.
Proof.
  unfold setElasticPoolProperties, mbind, M_bind, deref.
  destruct (sql.Dtu p), (sql.DatabaseDtuMin p), (sql.DatabaseDtuMax p),
    (sql.StorageMB p); try discriminate.
  destruct (sql.CreationDate p); intros [= <- _]; by rewrite !Id_Set'.
Qed.

(** What Read does to the identifier, given that the tag helper keeps it. *)
Lemma Read_identifier (d d' : RD) (meta : ArmClient W) (σ σ' : Remote W)
    (e : option error) :
  (∀ b tags, schema.Id (flattenAndSetTags b tags) = schema.Id b) →
  Read d meta σ = (Done (d', e), σ') →
  schema.Id d' = schema.Id d ∨ (schema.Id d' = "" ∧ e = None).
Proof.
  intros Htags. unfold resourceArmSqlElasticPoolRead.
  destruct (parseArmSqlElasticPoolId _) as [[[resGroup serverName] name] [perr|]].
  { intros [= <- _ _]. by left. }
  unfold mbind, M_bind, remote.
  destruct (sql.Get _ _ _ _ _) as [[resp [err|]] w']; simpl.
  - destruct (utils.ResponseWasNotFound _); intros [= <- <- _].
    + right. split; [apply schema.Id_SetId | reflexivity].
    + by left.
  - unfold deref. destruct (sql.Location resp) as [location|]; [|discriminate]. simpl.
    destruct (sql.Properties resp) as [p|].
    + destruct (setElasticPoolProperties _ _ _ _) as [[b|] σ1] eqn:Hset; [|discriminate].
      intros [= <- _ _]. left. rewrite Htags.
      rewrite (setElasticPoolProperties_identifier _ _ _ _ _ Hset). by rewrite !Id_Set'.
    + intros [= <- _ _]. left. rewrite Htags. by rewrite !Id_Set'.
Qed.

(** X1.  With an identifier that does not parse, Read returns the wrapped
    parse error, hands back the bag as it was and issues no remote call. *)
Theorem read_malformed_id (d : RD) (meta : ArmClient W) (σ : Remote W) (cause : error) :
  parseAzureResourceID (schema.Id d) = inr cause →
  Read d meta σ = (Done (d, Some (ErrParseId (schema.Id d) cause)), σ).
Proof.
  intros Hparse. unfold resourceArmSqlElasticPoolRead, parseArmSqlElasticPoolId.
  by rewrite Hparse.
Qed.

(** X2.  Whatever its outcome (result, error or panic), Read issues no
    remote call when the identifier does not parse and otherwise exactly
    one: the get of the parsed resource group, server and pool. *)
Theorem read_issues_one_get (d : RD) (meta : ArmClient W) (σ : Remote W) :
  calls (Read d meta σ).2
  = calls σ ++ match parseArmSqlElasticPoolId (schema.Id d) with
               | (resGroup, serverName, name, None) => [CallGet resGroup serverName name]
               | (_, _, _, Some _) => []
               end.
Proof.
  rewrite Read_remote_state.
  destruct (parseArmSqlElasticPoolId _) as [[[resGroup serverName] name] [e|]]; simpl;
    [by rewrite app_nil_r | reflexivity].
Qed.


(** X4.  Read never changes the identifier except to clear it: whenever it
    returns, the bag holds the identifier it came with, or the empty
    identifier together with no error (the not-found case). *)
Theorem read_keeps_id (d d' : RD) (meta : ArmClient W) (σ σ' : Remote W)
    (e : option error) :
  (∀ b tags, schema.Id (flattenAndSetTags b tags) = schema.Id b) →
  Read d meta σ = (Done (d', e), σ') →
  schema.Id d' = schema.Id d ∨ (schema.Id d' = "" ∧ e = None).
Proof. intros Htags Hrun. exact (Read_identifier d d' meta σ σ' e Htags Hrun). Qed.

(** Unfolding Create along the answers of the client. *)
Ltac create_steps :=
  unfold resourceArmSqlElasticPoolCreate, mbind, M_bind, remote;
  repeat match goal with
         | H : sql.CreateOrUpdate _ _ _ _ _ _ = _ |- _ => rewrite H; clear H; simpl
         | H : sql.WaitForCompletion _ _ _ = _ |- _ => rewrite H; clear H; simpl
         | H : sql.Get _ _ _ _ _ = _ |- _ => rewrite H; clear H; simpl
         | H : sql.ID _ = _ |- _ => rewrite H; clear H; simpl
         end.

(** X5.  The remote calls of Create are, in this order, create-or-update,
    the wait, the get of the pool named in the bag and at most one further
    get (the one of Read); it stops after any of the first three, and it
    never issues a delete. *)
Theorem create_call_sequence (d : RD) (meta : ArmClient W) (σ : Remote W) :
  let expected :=
    createCalls (schema.GetString d "resource_group_name")
      (schema.GetString d "server_name") (schema.GetString d "name")
      (elasticPoolOf expandTags d) in
  ∃ rest, calls (Create d meta σ).2 = calls σ ++ rest
          ∧ ((∃ n, (1 ≤ n ≤ 3)%nat ∧ rest = take n expected)
             ∨ ∃ resGroup serverName name,
                 rest = expected ++ [CallGet resGroup serverName name])
          ∧ forallb (λ c, negb (isDelete c)) rest = true.
Proof.
  simpl. unfold resourceArmSqlElasticPoolCreate, mbind, M_bind, remote.
  destruct (sql.CreateOrUpdate _ _ _ _ _ _) as [[future [err|]] w1]; simpl.
  { eexists. split; [reflexivity|]. split; [left; exists 1%nat; split; [lia|done] | done]. }
  destruct (sql.WaitForCompletion _ _ _) as [[err|] w2]; simpl.
  { eexists. rewrite <- app_assoc. split; [reflexivity|].
    split; [left; exists 2%nat; split; [lia|done] | done]. }
  destruct (sql.Get _ _ _ _ _) as [[read [err|]] w3]; simpl.
  { eexists. rewrite <- !app_assoc. split; [reflexivity|].
    split; [left; exists 3%nat; split; [lia|done] | done]. }
  destruct (sql.ID read) as [id|]; simpl.
  - rewrite Read_remote_state.
    destruct (parseArmSqlElasticPoolId _) as [[[resGroup serverName] name] [e|]]; simpl.
    + eexists. rewrite <- !app_assoc. split; [reflexivity|].
      split; [left; exists 3%nat; split; [lia|done] | done].
    + eexists. rewrite <- !app_assoc. split; [reflexivity|].
      split; [right; by exists resGroup, serverName, name | done].
  - eexists. rewrite <- !app_assoc. split; [reflexivity|].
    split; [left; exists 3%nat; split; [lia|done] | done].
Qed.

(** X6.  Create stops at the first stage that fails: a failed request is
    the only call, a failed wait the second, and a failed or
    identifier-less re-fetch the third and last. *)
Theorem create_stops_at_failure (d : RD) (meta : ArmClient W) (σ : Remote W)
    (stage : CreateStage) (err : error) :
  CreateFailure expandTags d meta (world σ) stage err →
  calls (Create d meta σ).2
  = calls σ ++ take (stageCalls stage)
                 (createCalls (schema.GetString d "resource_group_name")
                    (schema.GetString d "server_name") (schema.GetString d "name")
                    (elasticPoolOf expandTags d)).
Proof.
  intros Hfail.
  inversion Hfail as [future e w1 Hcreate | future w1 e w2 Hcreate Hwait
                     | future w1 w2 read e w3 Hcreate Hwait Hget
                     | future w1 w2 read w3 Hcreate Hwait Hget Hid]; subst;
    create_steps; by rewrite <- ?app_assoc.
Qed.

(** X7.  When create-or-update, the wait and the re-fetch succeed and the
    fetched pool has an identifier, Create assigns that identifier and from
    there on is Read on the bag that holds it. *)
Theorem create_assigns_then_reads (d : RD) (meta : ArmClient W) (σ : Remote W)
    (future : sql.Future (sqlElasticPoolsClient meta)) (read : sql.ElasticPool)
    (id : string) (w1 w2 w3 : W) :
  let client := sqlElasticPoolsClient meta in
  let name := schema.GetString d "name" in
  let serverName := schema.GetString d "server_name" in
  let resGroup := schema.GetString d "resource_group_name" in
  sql.CreateOrUpdate client resGroup serverName name (elasticPoolOf expandTags d) (world σ)
    = (future, None, w1) →
  sql.WaitForCompletion client future w1 = (None, w2) →
  sql.Get client resGroup serverName name w2 = (read, None, w3) →
  sql.ID read = Some id →
  Create d meta σ
  = Read (schema.SetId d id) meta
      {| world := w3;
         calls := calls σ ++ createCalls resGroup serverName name
                               (elasticPoolOf expandTags d) |}.
Proof.
  intros client name serverName resGroup Hcreate Hwait Hget Hid.
  subst client name serverName resGroup. create_steps. by rewrite <- !app_assoc.
Qed.

(** X8.  Once the identifier is assigned, Create can only hand back a bag
    that holds it, or, when the Read that follows finds the pool gone, a
    bag with the empty identifier and no error. *)
Theorem create_result_identifier (d d' : RD) (meta : ArmClient W) (σ σ' : Remote W)
    (future : sql.Future (sqlElasticPoolsClient meta)) (read : sql.ElasticPool)
    (id : string) (w1 w2 w3 : W) (e : option error) :
  let client := sqlElasticPoolsClient meta in
  let name := schema.GetString d "name" in
  let serverName := schema.GetString d "server_name" in
  let resGroup := schema.GetString d "resource_group_name" in
  (∀ b tags, schema.Id (flattenAndSetTags b tags) = schema.Id b) →
  sql.CreateOrUpdate client resGroup serverName name (elasticPoolOf expandTags d) (world σ)
    = (future, None, w1) →
  sql.WaitForCompletion client future w1 = (None, w2) →
  sql.Get client resGroup serverName name w2 = (read, None, w3) →
  sql.ID read = Some id →
  Create d meta σ = (Done (d', e), σ') →
  schema.Id d' = id ∨ (schema.Id d' = "" ∧ e = None).
Proof.
  intros client name serverName resGroup Htags Hcreate Hwait Hget Hid.
  subst client name serverName resGroup. create_steps. intros Hrun.
  destruct (Read_identifier _ _ _ _ _ _ Htags Hrun) as [Hsame|Hgone]; [left|by right].
  by rewrite Hsame, schema.Id_SetId.
Qed.



(** The fields of the properties that Create sends. *)
Lemma getArmSqlElasticPoolProperties_fields (d : RD) :
  let props := getArmSqlElasticPoolProperties d in
  let optional (k : string) :=
    let (v, ok) := schema.GetOkInt d k in if ok then Some (int32 v) else None in
  sql.CreationDate props = None
  ∧ sql.Dtu props = Some (int32 (schema.GetInt d "dtu"))
  ∧ sql.DatabaseDtuMin props = optional "db_dtu_min"
  ∧ sql.DatabaseDtuMax props = optional "db_dtu_max"
  ∧ sql.StorageMB props = optional "pool_size".
Proof.
  simpl. unfold getArmSqlElasticPoolProperties.
  destruct (schema.GetOkInt d "db_dtu_min") as [v1 [|]],
           (schema.GetOkInt d "db_dtu_max") as [v2 [|]],
           (schema.GetOkInt d "pool_size") as [v3 [|]]; simpl; auto.
Qed.

Lemma int32_range (x : Z) : inInt32 (int32 x).
Proof.
  unfold inInt32, int32.
  pose proof (Z.mod_pos_bound (x + 2 ^ 31) (2 ^ 32) ltac:(lia)). lia.
Qed.

(** X10.  Every number in the properties that Create sends lies in the
    int32 range, whatever integers the bag holds, and the creation date is
    never sent. *)
Theorem payload_within_int32 (d : RD) :
  let props := getArmSqlElasticPoolProperties d in
  from_option inInt32 True (sql.Dtu props)
  ∧ from_option inInt32 True (sql.DatabaseDtuMin props)
  ∧ from_option inInt32 True (sql.DatabaseDtuMax props)
  ∧ from_option inInt32 True (sql.StorageMB props)
  ∧ sql.CreationDate props = None.
Proof.
  destruct (getArmSqlElasticPoolProperties_fields d) as (Hdate & Hdtu & Hmin & Hmax & Hmb).
  simpl. rewrite Hdate, Hdtu, Hmin, Hmax, Hmb.
  destruct (schema.GetOkInt d "db_dtu_min") as [v1 [|]],
           (schema.GetOkInt d "db_dtu_max") as [v2 [|]],
           (schema.GetOkInt d "pool_size") as [v3 [|]]; simpl;
    repeat split; apply int32_range.
Qed.

(** X11.  The DTU that Create sends is the desired DTU exactly when the
    desired DTU fits an int32; outside that range the conversion wraps it
    around and another number is sent. *)
Theorem payload_dtu_exact_iff (d : RD) :
  sql.Dtu (getArmSqlElasticPoolProperties d) = Some (schema.GetInt d "dtu")
  ↔ inInt32 (schema.GetInt d "dtu").
Proof.
  destruct (getArmSqlElasticPoolProperties_fields d) as (_ & Hdtu & _). simpl in Hdtu.
  rewrite Hdtu. split.
  - intros [= Heq]. rewrite <- Heq. apply int32_range.
  - intros Hrange. f_equal. by apply int32_in_range.
Qed.

(** X12.  An identifier that parses but lacks the server and pool segments
    (the identifier of some other resource) is not rejected: Read gets and
    Delete deletes in the parsed resource group with the empty server name
    and the empty pool name. *)
Theorem missing_segments_not_rejected (d : RD) (meta : ArmClient W) (σ : Remote W)
    (id : ResourceID) :
  parseAzureResourceID (schema.Id d) = inl id →
  Path id !! "servers" = None →
  Path id !! "elasticPools" = None →
  calls (Read d meta σ).2 = calls σ ++ [CallGet (ResourceGroup id) "" ""]
  ∧ calls (resourceArmSqlElasticPoolDelete d meta σ).2
    = calls σ ++ [CallDelete (ResourceGroup id) "" ""].
Proof.
  intros Hparse Hservers Hpools. split.
  - rewrite Read_remote_state. unfold parseArmSqlElasticPoolId, mapIndex.
    by rewrite Hparse, Hservers, Hpools.
  - unfold resourceArmSqlElasticPoolDelete, parseArmSqlElasticPoolId, mapIndex.
    rewrite Hparse, Hservers, Hpools. unfold mbind, M_bind, remote. simpl.
    by destruct (sql.Delete _ _ _ _ _) as [[resp err] w'].
Qed.

End Further.

(** X13.  The edition is compared with regard to case: a string that
    matches one of the three editions only up to case is rejected, although
    the same allow-list would accept it when asked to ignore case. *)
Theorem edition_case_sensitive (s k : string) :
  let editions := ["Basic"; "Standard"; "Premium"] in
  s ∉ editions →
  validation.ToLower s ∈ validation.ToLower <$> editions →
  validateSqlElasticPoolEdition (VString s) k = ([], [ErrValidation k editions s])
  ∧ validation.StringInSlice editions true (VString s) k = ([], []).
Proof.
  intros editions Hnot Hlower. subst editions.
  assert (Hb : String.eqb s "Basic" = false)
    by (apply String.eqb_neq; intros ->; apply Hnot; repeat constructor).
  assert (Hs : String.eqb s "Standard" = false)
    by (apply String.eqb_neq; intros ->; apply Hnot; repeat constructor).
  assert (Hp : String.eqb s "Premium" = false)
    by (apply String.eqb_neq; intros ->; apply Hnot; repeat constructor).
  unfold validateSqlElasticPoolEdition, validation.StringInSlice,
    sql.ElasticPoolEditionBasic, sql.ElasticPoolEditionStandard,
    sql.ElasticPoolEditionPremium. simpl existsb.
  rewrite Hb, Hs, Hp. simpl. split; [reflexivity|].
  change (validation.ToLower <$> ["Basic"; "Standard"; "Premium"])
    with ["basic"; "standard"; "premium"] in Hlower.
  change (validation.ToLower "Basic") with "basic".
  change (validation.ToLower "Standard") with "standard".
  change (validation.ToLower "Premium") with "premium".
  apply elem_of_cons in Hlower as [->|Hlower]; [reflexivity|].
  apply elem_of_cons in Hlower as [->|Hlower]; [reflexivity|].
  apply elem_of_cons in Hlower as [->|Hlower]; [reflexivity|].
  by apply elem_of_nil in Hlower.
Qed.

(** ** What Read writes, observed on the in-memory bag *)

#[local] Set Warnings "-clear-no-such-hyp".

Section WriteBack.
Variable azureRMNormalizeLocation : string → string.
Variable expandTags : gmap string Value → ApiTags.
Variable flattenAndSetTags : Bag → ApiTags → Bag.
Variable locationSchema resourceGroupNameSchema tagsSchema : schema.Schema.
Variable formatRFC3339 : Time → string.

#[local] Abbreviation ReadBag :=
  (resourceArmSqlElasticPoolRead (W := nat) azureRMNormalizeLocation flattenAndSetTags
     formatRFC3339).

(** X14.  Read writes declared attributes only: provided the tag helper
    writes nothing but "tags", every key of the bag that Read hands back was
    in the bag before or is a key of the resource's schema. *)
Theorem read_writes_declared_keys (d d' : Bag) (meta : ArmClient nat)
    (σ σ' : Remote nat) (e : option error) :
  (∀ b tags, dom (bagAttrs (flattenAndSetTags b tags)) ⊆ dom (bagAttrs b) ∪ {["tags"]}) →
  ReadBag d meta σ = (Done (d', e), σ') →
  dom (bagAttrs d')
  ⊆ dom (bagAttrs d)
    ∪ dom (schema.Schema'
             (resourceArmSqlElasticPool (W := nat) azureRMNormalizeLocation expandTags
                flattenAndSetTags locationSchema resourceGroupNameSchema tagsSchema
                formatRFC3339)).
Proof.
  intros Htags. unfold resourceArmSqlElasticPool. cbn [schema.Schema'].
  rewrite dom_list_to_map_L. cbn [fmap list_fmap fst list_to_set foldr].
  unfold resourceArmSqlElasticPoolRead.
  destruct (parseArmSqlElasticPoolId _) as [[[resGroup serverName] name] [perr|]].
  { intros [= <- _ _]. set_solver. }
  unfold mbind, M_bind, remote.
  destruct (sql.Get _ _ _ _ _) as [[resp [err|]] w']; simpl.
  { destruct (utils.ResponseWasNotFound _); intros [= <- _ _]; simpl; set_solver. }
  unfold deref. destruct (sql.Location resp) as [location|]; [|discriminate]. simpl.
  destruct (sql.Properties resp) as [p|].
  - unfold setElasticPoolProperties, mbind, M_bind, deref.
    destruct (sql.Dtu p), (sql.DatabaseDtuMin p), (sql.DatabaseDtuMax p),
      (sql.StorageMB p); try discriminate.
    destruct (sql.CreationDate p); intros [= <- _ _];
      (etrans; [apply Htags|]); simpl; rewrite !dom_insert_L; set_solver.
  - intros [= <- _ _]. etrans; [apply Htags|]. simpl. rewrite !dom_insert_L. set_solver.
Qed.


End WriteBack.

(** ** The further properties at work on the scripted client *)

Lemma read_malformed_id_witness :
  resourceArmSqlElasticPoolRead normalizeLocationStub flattenAndSetTagsStub
    formatRFC3339Stub (pool1Bag "pool1") notFoundMeta freshRemote
  = (Done (pool1Bag "pool1", Some (ErrParseId "pool1" (ErrOddSegments "pool1"))),
     freshRemote).
Proof.
  refine (read_malformed_id normalizeLocationStub flattenAndSetTagsStub formatRFC3339Stub
           (pool1Bag "pool1") notFoundMeta freshRemote (ErrOddSegments "pool1") _).
  vm_compute. reflexivity.
Defined.


Lemma read_keeps_id_witness :
  ∃ d' e σ',
    resourceArmSqlElasticPoolRead normalizeLocationStub flattenAndSetTagsStub
      formatRFC3339Stub (pool1Bag pool1Id) (completedMeta pool1Id) freshRemote
    = (Done (d', e), σ')
    ∧ (schema.Id d' = schema.Id (pool1Bag pool1Id) ∨ (schema.Id d' = "" ∧ e = None)).
Proof.
  eexists _, _, _. split; [vm_compute; reflexivity|].
  refine (read_keeps_id normalizeLocationStub flattenAndSetTagsStub formatRFC3339Stub
           (pool1Bag pool1Id) _ (completedMeta pool1Id) freshRemote _ _ _ _).
  - intros b tags. reflexivity.
  - vm_compute. reflexivity.
Defined.

Lemma create_stops_at_failure_witness :
  calls (resourceArmSqlElasticPoolCreate normalizeLocationStub expandTagsStub
           flattenAndSetTagsStub formatRFC3339Stub (pool1Bag "") failedWaitMeta
           freshRemote).2
  = [CallCreateOrUpdate "rg1" "srv1" "pool1" (elasticPoolOf expandTagsStub (pool1Bag ""));
     CallWaitForCompletion].
Proof.
  refine (create_stops_at_failure normalizeLocationStub expandTagsStub
           flattenAndSetTagsStub formatRFC3339Stub (pool1Bag "") failedWaitMeta
           freshRemote StageWait (ApiError "DeploymentFailed") _).
  eapply FailWait; reflexivity.
Defined.

Lemma create_assigns_then_reads_witness :
  resourceArmSqlElasticPoolCreate normalizeLocationStub expandTagsStub
    flattenAndSetTagsStub formatRFC3339Stub (pool1Bag "") (completedMeta pool1Id)
    freshRemote
  = resourceArmSqlElasticPoolRead normalizeLocationStub flattenAndSetTagsStub
      formatRFC3339Stub (schema.SetId (pool1Bag "") pool1Id) (completedMeta pool1Id)
      {| world := 3%nat;
         calls := createCalls "rg1" "srv1" "pool1"
                    (elasticPoolOf expandTagsStub (pool1Bag "")) |}.
Proof.
  refine (create_assigns_then_reads normalizeLocationStub expandTagsStub
           flattenAndSetTagsStub formatRFC3339Stub (pool1Bag "") (completedMeta pool1Id)
           freshRemote tt (fullPool pool1Id) pool1Id 1%nat 2%nat 3%nat _ _ _ _); reflexivity.
Defined.

Lemma create_result_identifier_witness :
  ∃ d' e σ',
    resourceArmSqlElasticPoolCreate normalizeLocationStub expandTagsStub
      flattenAndSetTagsStub formatRFC3339Stub (pool1Bag "") (completedMeta pool1Id)
      freshRemote
    = (Done (d', e), σ')
    ∧ (schema.Id d' = pool1Id ∨ (schema.Id d' = "" ∧ e = None)).
Proof.
  eexists _, _, _. split; [vm_compute; reflexivity|].
  refine (create_result_identifier normalizeLocationStub expandTagsStub
           flattenAndSetTagsStub formatRFC3339Stub (pool1Bag "") _
           (completedMeta pool1Id) freshRemote _ tt (fullPool pool1Id) pool1Id
           1%nat 2%nat 3%nat _ _ _ _ _ _ _).
  - intros b tags. reflexivity.
  - reflexivity.
  - reflexivity.
  - reflexivity.
  - reflexivity.
  - vm_compute. reflexivity.
Defined.


Lemma missing_segments_witness :
  let d := pool1Bag "/subscriptions/0000/resourceGroups/rg1" in
  calls (resourceArmSqlElasticPoolRead normalizeLocationStub flattenAndSetTagsStub
           formatRFC3339Stub d notFoundMeta freshRemote).2
  = [CallGet "rg1" "" ""]
  ∧ calls (resourceArmSqlElasticPoolDelete d notFoundMeta freshRemote).2
    = [CallDelete "rg1" "" ""].
Proof.
  refine (missing_segments_not_rejected normalizeLocationStub flattenAndSetTagsStub
           formatRFC3339Stub (pool1Bag "/subscriptions/0000/resourceGroups/rg1")
           notFoundMeta freshRemote
           {| SubscriptionID := "0000"; ResourceGroup := "rg1"; Provider := "";
              Path := ∅ |} _ _ _).
  - vm_compute. reflexivity.
  - reflexivity.
  - reflexivity.
Defined.

Lemma edition_case_sensitive_witness :
  validateSqlElasticPoolEdition (VString "basic") "edition"
  = ([], [ErrValidation "edition" ["Basic"; "Standard"; "Premium"] "basic"])
  ∧ validation.StringInSlice ["Basic"; "Standard"; "Premium"] true (VString "basic")
      "edition"
    = ([], []).
Proof.
  refine (edition_case_sensitive "basic" "edition" _ _).
  - intros Hin. repeat (apply elem_of_cons in Hin as [Hin|Hin]; [discriminate Hin|]).
    by apply elem_of_nil in Hin.
  - vm_compute. constructor.
Defined.

Lemma read_writes_declared_keys_witness :
  ∃ d' e σ',
    resourceArmSqlElasticPoolRead normalizeLocationStub flattenAndSetTagsStub
      formatRFC3339Stub (pool1Bag pool1Id) (completedMeta pool1Id) freshRemote
    = (Done (d', e), σ')
    ∧ dom (bagAttrs d')
      ⊆ dom (bagAttrs (pool1Bag pool1Id))
        ∪ dom (schema.Schema'
                 (resourceArmSqlElasticPool (W := nat) normalizeLocationStub
                    expandTagsStub flattenAndSetTagsStub
                    (schema.Build_Schema schema.TypeString true false false true None)
                    (schema.Build_Schema schema.TypeString true false false true None)
                    (schema.Build_Schema schema.TypeMap false true true false None)
                    formatRFC3339Stub)).
Proof.
  eexists _, _, _. split; [vm_compute; reflexivity|].
  refine (read_writes_declared_keys normalizeLocationStub expandTagsStub
           flattenAndSetTagsStub _ _ _ formatRFC3339Stub (pool1Bag pool1Id) _
           (completedMeta pool1Id) freshRemote _ _ _ _).
  - intros b tags. apply union_subseteq_l.
  - vm_compute. reflexivity.
Defined.

